(** * OpenClawUE: a shallow embedding of the Python package [openclawue]

    The development follows the two source files of the package:

    - [services.py]: [BaseService] with [_check_unreal] and [_format_error],
      the eight domain services and [OpenClawService];
    - [__init__.py]: the module namespace with its lazily filled service
      slots ([_get_service]), the service accessors, and the module-level
      functions [discover_module], [discover_class] and [execute_python].

    The modules [Services] and [OpenClawUE] take the arguments as the
    strings the annotations declare; the module [Objects] takes them as
    arbitrary objects, whose formatting may raise, and exceptions as
    objects whose [__str__] may raise.

    Python dictionaries with string keys are finite maps [gmap string _];
    raising and catching is an outcome type with a [try_except] combinator
    that, like [except Exception], lets exceptions outside the [Exception]
    hierarchy through; methods that assign to [self] pass the instance
    explicitly. *)

From Stdlib Require Import ZArith Ascii Floats.SpecFloat.
From stdpp Require Import base option strings list gmap fin_maps.

Local Open Scope string_scope.
#[local] Set Warnings "-register-all".

(** ** Python values *)

Module Py.

(** The values that occur in the envelopes of the package.  Floats are
    IEEE-754 binary64 values in their specification form, so that the
    literal [0.0] is [S754_zero false]. *)
Inductive value : Type :=
| VNone
| VBool (b : bool)
| VInt (z : Z)
| VFloat (f : spec_float)
| VStr (s : string)
| VList (l : list value)
| VDict (d : gmap string value).

(** [x is None] *)
Definition is_None (v : value) : bool :=
  match v with VNone => true | _ => false end.

(** The exception classes the code can meet.  [OtherException] stands for
    any further class below [Exception], [OtherBaseException] for a class
    that derives from [BaseException] only. *)
Inductive exn_class : Type :=
| RuntimeError
| TypeError
| NameError
| AttributeError
| ZeroDivisionError
| SystemExit
| KeyboardInterrupt
| OtherException (name : string)
| OtherBaseException (name : string).

(** [issubclass(c, Exception)] *)
Definition is_Exception (c : exn_class) : bool :=
  match c with
  | SystemExit | KeyboardInterrupt | OtherBaseException _ => false
  | _ => true
  end.

(** [c.__name__] *)
Definition class_name (c : exn_class) : string :=
  match c with
  | RuntimeError => "RuntimeError"
  | TypeError => "TypeError"
  | NameError => "NameError"
  | AttributeError => "AttributeError"
  | ZeroDivisionError => "ZeroDivisionError"
  | SystemExit => "SystemExit"
  | KeyboardInterrupt => "KeyboardInterrupt"
  | OtherException n => n
  | OtherBaseException n => n
  end.

(** An exception instance: its class and [str(e)]. *)
Record exn : Type := Exn { exn_type : exn_class; exn_str : string }.

(** What a call does: it returns, it raises, or it does not come back. *)
Inductive outcome (A : Type) : Type :=
| Return (a : A)
| Raise (e : exn)
| Diverge.
Arguments Return {A} a.
Arguments Raise {A} e.
Arguments Diverge {A}.

#[export] Instance outcome_ret : MRet outcome := λ A a, Return a.

#[export] Instance outcome_bind : MBind outcome := λ A B k m,
  match m with
  | Return a => k a
  | Raise e => Raise e
  | Diverge => Diverge
  end.

(** [try: body  except Exception as e: handler e] *)
Definition try_except {A} (body : outcome A) (handler : exn → outcome A)
  : outcome A :=
  match body with
  | Raise e => if is_Exception (exn_type e) then handler e else Raise e
  | o => o
  end.

Definition returns {A} (m : outcome A) : Prop := ∃ a, m = Return a.

End Py.

Export Py.

(** A result envelope is a Python [dict] with string keys. *)
Abbreviation envelope := (gmap string value).

(** ** services.py *)

Module Services.

(** [class BaseService]: the only attribute set by [__init__] is the copy
    of the module-level [_UNREAL_AVAILABLE]. *)
Record BaseService : Type := { _unreal_available : bool }.

(** [BaseService.__init__], given the value of [_UNREAL_AVAILABLE]. *)
Definition BaseService__init__ (_UNREAL_AVAILABLE : bool) : BaseService :=
  {| _unreal_available := _UNREAL_AVAILABLE |}.

Definition _check_unreal (self : BaseService) : outcome bool :=
  if negb (_unreal_available self)
  then Raise (Exn RuntimeError "Unreal Engine Python API not available")
  else Return true.

(** The error [_check_unreal] raises, under a name. *)
Definition unavailable : exn :=
  Exn RuntimeError "Unreal Engine Python API not available".

Definition _format_error (error : exn) : envelope :=
  {[ "success" := VBool false;
     "error" := VStr (exn_str error);
     "error_type" := VStr (class_name (exn_type error)) ]}.

(** *** BlueprintService *)

Definition create_blueprint (self : BaseService)
  (name parent_class path : string) : outcome envelope :=
  try_except
    (_check_unreal self;;
     Return {[ "success" := VBool true;
               "asset_path" := VStr (path +:+ "/" +:+ name);
               "message" := VStr ("Blueprint '" +:+ name +:+ "' created successfully") ]})
    (λ e, Return (_format_error e)).

Definition add_variable (self : BaseService)
  (blueprint_path name var_type default_value : string) : outcome envelope :=
  try_except
    (_check_unreal self;;
     Return {[ "success" := VBool true;
               "variable_name" := VStr name;
               "variable_type" := VStr var_type;
               "message" := VStr ("Variable '" +:+ name +:+ "' added to " +:+ blueprint_path) ]})
    (λ e, Return (_format_error e)).

Definition compile_blueprint (self : BaseService)
  (blueprint_path : string) : outcome envelope :=
  try_except
    (_check_unreal self;;
     Return {[ "success" := VBool true;
               "message" := VStr ("Blueprint " +:+ blueprint_path +:+ " compiled successfully") ]})
    (λ e, Return (_format_error e)).

(** *** MaterialService *)

Definition create_material (self : BaseService)
  (name path : string) : outcome envelope :=
  try_except
    (_check_unreal self;;
     Return {[ "success" := VBool true;
               "asset_path" := VStr (path +:+ "/" +:+ name);
               "message" := VStr ("Material '" +:+ name +:+ "' created successfully") ]})
    (λ e, Return (_format_error e)).

Definition create_material_instance (self : BaseService)
  (parent_material name path : string) : outcome envelope :=
  try_except
    (_check_unreal self;;
     Return {[ "success" := VBool true;
               "asset_path" := VStr (path +:+ "/" +:+ name);
               "message" := VStr ("Material Instance '" +:+ name +:+ "' created successfully") ]})
    (λ e, Return (_format_error e)).

(** *** WidgetService *)

Definition create_widget_blueprint (self : BaseService)
  (name path parent_class : string) : outcome envelope :=
  try_except
    (_check_unreal self;;
     Return {[ "success" := VBool true;
               "asset_path" := VStr (path +:+ "/" +:+ name);
               "message" := VStr ("Widget Blueprint '" +:+ name +:+ "' created successfully") ]})
    (λ e, Return (_format_error e)).

Definition add_widget_component (self : BaseService)
  (widget_path component_type name parent : string) : outcome envelope :=
  try_except
    (_check_unreal self;;
     Return {[ "success" := VBool true;
               "component_name" := VStr name;
               "component_type" := VStr component_type;
               "message" := VStr ("Component '" +:+ name +:+ "' added to " +:+ widget_path) ]})
    (λ e, Return (_format_error e)).

(** *** ActorService *)

(** [location] and [rotation] are passed through as they come; the default
    of [rotation] is [None]. *)
Definition spawn_actor (self : BaseService)
  (actor_class : string) (location : value) (rotation : value)
  : outcome envelope :=
  try_except
    (_check_unreal self;;
     let rotation :=
       if is_None rotation
       then VList [VFloat (S754_zero false); VFloat (S754_zero false);
                   VFloat (S754_zero false)]
       else rotation in
     Return {[ "success" := VBool true;
               "actor_class" := VStr actor_class;
               "location" := location;
               "rotation" := rotation;
               "message" := VStr ("Actor of class '" +:+ actor_class +:+ "' spawned successfully") ]})
    (λ e, Return (_format_error e)).

(** [spawn_actor(actor_class, location)], the [rotation] argument left out. *)
Definition spawn_actor_default (self : BaseService)
  (actor_class : string) (location : value) : outcome envelope :=
  spawn_actor self actor_class location VNone.

Definition get_all_actors (self : BaseService) : outcome envelope :=
  try_except
    (_check_unreal self;;
     Return {[ "success" := VBool true;
               "actors" := VList [];
               "count" := VInt 0;
               "message" := VStr "No actors in level (stub mode)" ]})
    (λ e, Return (_format_error e)).

(** *** AnimationService, NiagaraService, InputService *)

Definition create_animation_sequence (self : BaseService)
  (name path skeleton : string) : outcome envelope :=
  try_except
    (_check_unreal self;;
     Return {[ "success" := VBool true;
               "asset_path" := VStr (path +:+ "/" +:+ name);
               "message" := VStr ("Animation Sequence '" +:+ name +:+ "' created successfully") ]})
    (λ e, Return (_format_error e)).

Definition create_niagara_system (self : BaseService)
  (name path template : string) : outcome envelope :=
  try_except
    (_check_unreal self;;
     Return {[ "success" := VBool true;
               "asset_path" := VStr (path +:+ "/" +:+ name);
               "message" := VStr ("Niagara System '" +:+ name +:+ "' created successfully") ]})
    (λ e, Return (_format_error e)).

Definition create_input_action (self : BaseService)
  (name path value_type : string) : outcome envelope :=
  try_except
    (_check_unreal self;;
     Return {[ "success" := VBool true;
               "asset_path" := VStr (path +:+ "/" +:+ name);
               "message" := VStr ("Input Action '" +:+ name +:+ "' created successfully") ]})
    (λ e, Return (_format_error e)).

(** *** AssetService *)

Definition search_assets (self : BaseService)
  (search_term asset_type : string) : outcome envelope :=
  try_except
    (_check_unreal self;;
     Return {[ "success" := VBool true;
               "assets" := VList [];
               "count" := VInt 0;
               "message" := VStr "No assets found (stub mode)" ]})
    (λ e, Return (_format_error e)).

(** *** OpenClawService *)

(** [class OpenClawService(BaseService)]: [__init__] calls the base
    initialiser and adds the connection flag. *)
Record OpenClawService : Type :=
  { base : BaseService; _connected : bool }.

Definition OpenClawService__init__ (_UNREAL_AVAILABLE : bool) : OpenClawService :=
  {| base := BaseService__init__ _UNREAL_AVAILABLE; _connected := false |}.

(** [self._connected = b] *)
Definition set_connected (b : bool) (self : OpenClawService) : OpenClawService :=
  {| base := base self; _connected := b |}.

(** The methods of [OpenClawService] return the outcome together with the
    instance as the call leaves it. *)
Definition connect_to_openclaw (self : OpenClawService) (url : string)
  : outcome envelope * OpenClawService :=
  let self := set_connected true self in
  (try_except
     (Return {[ "success" := VBool true;
                "connected" := VBool true;
                "url" := VStr url;
                "message" := VStr ("Connected to OpenClaw Gateway at " +:+ url) ]})
     (λ e, Return (_format_error e)),
   self).

Definition send_to_openclaw (self : OpenClawService) (command : value)
  : outcome envelope * OpenClawService :=
  (try_except
     (if negb (_connected self)
      then Return {[ "success" := VBool false;
                     "error" := VStr "Not connected to OpenClaw" ]}
      else Return {[ "success" := VBool true;
                     "command" := command;
                     "response" :=
                       VDict {[ "status" := VStr "received";
                                "message" := VStr "Command processed (stub)" ]} ]})
     (λ e, Return (_format_error e)),
   self).

Definition create_dashboard (self : OpenClawService)
  : outcome envelope * OpenClawService :=
  (try_except
     (Return {[ "success" := VBool true;
                "dashboard_url" := VStr "http://127.0.0.1:3000/openclawue";
                "message" := VStr "Dashboard created successfully (stub)" ]})
     (λ e, Return (_format_error e)),
   self).

(** *** The methods as data

    A call of a domain-service method with its arguments, so that
    statements can range over every method and every argument. *)
Inductive domain_call : Type :=
| Call_create_blueprint (name parent_class path : string)
| Call_add_variable (blueprint_path name var_type default_value : string)
| Call_compile_blueprint (blueprint_path : string)
| Call_create_material (name path : string)
| Call_create_material_instance (parent_material name path : string)
| Call_create_widget_blueprint (name path parent_class : string)
| Call_add_widget_component (widget_path component_type name parent : string)
| Call_spawn_actor (actor_class : string) (location rotation : value)
| Call_get_all_actors
| Call_create_animation_sequence (name path skeleton : string)
| Call_create_niagara_system (name path template : string)
| Call_create_input_action (name path value_type : string)
| Call_search_assets (search_term asset_type : string).

Definition invoke (self : BaseService) (c : domain_call) : outcome envelope :=
  match c with
  | Call_create_blueprint n pc p => create_blueprint self n pc p
  | Call_add_variable bp n t d => add_variable self bp n t d
  | Call_compile_blueprint bp => compile_blueprint self bp
  | Call_create_material n p => create_material self n p
  | Call_create_material_instance pm n p => create_material_instance self pm n p
  | Call_create_widget_blueprint n p pc => create_widget_blueprint self n p pc
  | Call_add_widget_component w t n p => add_widget_component self w t n p
  | Call_spawn_actor a l r => spawn_actor self a l r
  | Call_get_all_actors => get_all_actors self
  | Call_create_animation_sequence n p sk => create_animation_sequence self n p sk
  | Call_create_niagara_system n p t => create_niagara_system self n p t
  | Call_create_input_action n p t => create_input_action self n p t
  | Call_search_assets t a => search_assets self t a
  end.

(** The keys of the dictionary a method returns from its [try] body. *)
Definition output_fields (c : domain_call) : list string :=
  match c with
  | Call_create_blueprint _ _ _ | Call_create_material _ _
  | Call_create_material_instance _ _ _ | Call_create_widget_blueprint _ _ _
  | Call_create_animation_sequence _ _ _ | Call_create_niagara_system _ _ _
  | Call_create_input_action _ _ _ => ["asset_path"; "message"]
  | Call_add_variable _ _ _ _ => ["variable_name"; "variable_type"; "message"]
  | Call_compile_blueprint _ => ["message"]
  | Call_add_widget_component _ _ _ _ =>
      ["component_name"; "component_type"; "message"]
  | Call_spawn_actor _ _ _ => ["actor_class"; "location"; "rotation"; "message"]
  | Call_get_all_actors => ["actors"; "count"; "message"]
  | Call_search_assets _ _ => ["assets"; "count"; "message"]
  end.

Inductive openclaw_call : Type :=
| Call_connect_to_openclaw (url : string)
| Call_send_to_openclaw (command : value)
| Call_create_dashboard.

Definition invoke_openclaw (self : OpenClawService) (c : openclaw_call)
  : outcome envelope * OpenClawService :=
  match c with
  | Call_connect_to_openclaw url => connect_to_openclaw self url
  | Call_send_to_openclaw command => send_to_openclaw self command
  | Call_create_dashboard => create_dashboard self
  end.

Definition openclaw_output_fields (c : openclaw_call) : list string :=
  match c with
  | Call_connect_to_openclaw _ => ["connected"; "url"; "message"]
  | Call_send_to_openclaw _ => ["command"; "response"]
  | Call_create_dashboard => ["dashboard_url"; "message"]
  end.

(** The instance after a sequence of method calls, one after the other. *)
Definition run_openclaw (self : OpenClawService) (cs : list openclaw_call)
  : OpenClawService :=
  foldl (λ s c, (invoke_openclaw s c).2) self cs.

(** The two states of the connection. *)
Inductive connection : Type := Disconnected | Connected.

Definition connection_of (self : OpenClawService) : connection :=
  if _connected self then Connected else Disconnected.

(** The transitions the specification allows: stay, or connect. *)
Inductive transition : connection → openclaw_call → connection → Prop :=
| t_connect s url : transition s (Call_connect_to_openclaw url) Connected
| t_send s command : transition s (Call_send_to_openclaw command) s
| t_dashboard s : transition s Call_create_dashboard s.

(** The shape of an envelope: a boolean [success], an [error] when it is
    [False], the given fields when it is [True]. *)
Definition well_formed (fields : list string) (e : envelope) : Prop :=
  ∃ b : bool,
    e !! "success" = Some (VBool b) ∧
    (b = false → is_Some (e !! "error")) ∧
    (b = true → Forall (λ k, is_Some (e !! k)) fields).

(** [result.get(key)] on what a method call gave: the entry of the
    returned dictionary, [None] when there is none. *)
Definition get_field (key : string) (o : outcome envelope) : option value :=
  match o with
  | Return e => e !! key
  | _ => None
  end.

Definition is_connect (c : openclaw_call) : bool :=
  match c with
  | Call_connect_to_openclaw _ => true
  | _ => false
  end.

End Services.

(** ** __init__.py *)

Module OpenClawUE.

Import Services.

(** The nine service classes imported from [.services]. *)
Inductive class_id : Type :=
| Cls_BlueprintService
| Cls_MaterialService
| Cls_WidgetService
| Cls_ActorService
| Cls_AnimationService
| Cls_NiagaraService
| Cls_InputService
| Cls_AssetService
| Cls_OpenClawService.

Definition all_classes : list class_id :=
  [Cls_BlueprintService; Cls_MaterialService; Cls_WidgetService;
   Cls_ActorService; Cls_AnimationService; Cls_NiagaraService;
   Cls_InputService; Cls_AssetService; Cls_OpenClawService].

(** The global name a class is imported under, which is also the name of
    its accessor. *)
Definition global_name (c : class_id) : string :=
  match c with
  | Cls_BlueprintService => "BlueprintService"
  | Cls_MaterialService => "MaterialService"
  | Cls_WidgetService => "WidgetService"
  | Cls_ActorService => "ActorService"
  | Cls_AnimationService => "AnimationService"
  | Cls_NiagaraService => "NiagaraService"
  | Cls_InputService => "InputService"
  | Cls_AssetService => "AssetService"
  | Cls_OpenClawService => "OpenClawService"
  end.

(** The global that caches the instance of a class. *)
Definition instance_attr (c : class_id) : string :=
  match c with
  | Cls_BlueprintService => "_blueprint_service"
  | Cls_MaterialService => "_material_service"
  | Cls_WidgetService => "_widget_service"
  | Cls_ActorService => "_actor_service"
  | Cls_AnimationService => "_animation_service"
  | Cls_NiagaraService => "_niagara_service"
  | Cls_InputService => "_input_service"
  | Cls_AssetService => "_asset_service"
  | Cls_OpenClawService => "_openclaw_service"
  end.

(** A service instance on the heap. *)
Inductive object : Type :=
| Obj_domain (c : class_id) (self : BaseService)
| Obj_openclaw (self : OpenClawService).

Definition class_of (o : object) : class_id :=
  match o with
  | Obj_domain c _ => c
  | Obj_openclaw _ => Cls_OpenClawService
  end.

(** [lambda self: _get_service(<class_global>, '<attr>')]: the first
    argument is a global name, looked up when the lambda is called. *)
Record lambda : Type :=
  Lambda_get_service { lam_class_global : string; lam_instance_attr : string }.

(** What a global of the module is bound to.  An instance is a reference
    into the heap, so that [is] on instances is equality of references. *)
Inductive gvalue : Type :=
| GNone
| GBool (b : bool)
| GClass (c : class_id)
| GProperty (fget : lambda)
| GRef (l : nat).

Definition g_is_None (v : gvalue) : bool :=
  match v with GNone => true | _ => false end.

(** The module's [globals()] and the instances allocated so far. *)
Record state : Type :=
  State { globals : gmap string gvalue; heap : list object }.

Definition set_global (name : string) (v : gvalue) (st : state) : state :=
  State (<[name := v]> (globals st)) (heap st).

(** A result of the host interpreter's [exec]: what the code printed and
    how it ended. *)
Record exec_result : Type :=
  Exec { printed : string; ended : outcome unit }.

Section Host.

(** Whether [import unreal] succeeds in the hosting process; both modules
    set their [_UNREAL_AVAILABLE] from it. *)
Variable unreal_importable : bool.

(** The built-in [exec] of the host interpreter on a code string (with the
    globals [{'unreal': unreal}]). *)
Variable py_exec : string → exec_result.

Definition _UNREAL_AVAILABLE : bool := unreal_importable.

(** [service_class()] for a class of [.services]. *)
Definition construct (c : class_id) : object :=
  match c with
  | Cls_OpenClawService => Obj_openclaw (OpenClawService__init__ unreal_importable)
  | _ => Obj_domain c (BaseService__init__ unreal_importable)
  end.

(** [callee()]: only a class can be called with no argument; the other
    values have no [__call__]. *)
Definition call (callee : gvalue) (st : state) : outcome gvalue * state :=
  match callee with
  | GClass c =>
      (Return (GRef (length (heap st))),
       State (globals st) (heap st ++ [construct c]))
  | GProperty _ =>
      (Raise (Exn TypeError "'property' object is not callable"), st)
  | GNone =>
      (Raise (Exn TypeError "'NoneType' object is not callable"), st)
  | GBool _ =>
      (Raise (Exn TypeError "'bool' object is not callable"), st)
  | GRef l =>
      (Raise (Exn TypeError
                ("'" +:+ from_option (λ o, global_name (class_of o)) "object"
                                     (heap st !! l)
                 +:+ "' object is not callable")), st)
  end.

Definition _get_service (service_class : gvalue) (instance_attr : string)
  (st : state) : outcome gvalue * state :=
  let instance := default GNone (globals st !! instance_attr) in
  if g_is_None instance then
    match call service_class st with
    | (Return instance, st) =>
        (Return instance, set_global instance_attr instance st)
    | (o, st) => (o, st)
    end
  else (Return instance, st).

(** Calling the getter of an accessor: the lambda's body. *)
Definition apply_lambda (f : lambda) (st : state) : outcome gvalue * state :=
  match globals st !! lam_class_global f with
  | Some service_class => _get_service service_class (lam_instance_attr f) st
  | None =>
      (Raise (Exn NameError
                ("name '" +:+ lam_class_global f +:+ "' is not defined")), st)
  end.

(** The assignments of the module body that concern the services, in the
    order of the file: the import of the classes (lines 25-35), the empty
    slots (lines 56-64), then the accessors (lines 79-87), each bound to
    the name its class was imported under. *)
Definition module_body : list (string * gvalue) :=
  [("_UNREAL_AVAILABLE", GBool _UNREAL_AVAILABLE)]
  ++ map (λ c, (global_name c, GClass c)) all_classes
  ++ map (λ c, (instance_attr c, GNone)) all_classes
  ++ map (λ c, (global_name c,
                GProperty (Lambda_get_service (global_name c) (instance_attr c))))
       all_classes.

(** The module once imported. *)
Definition module_init : state :=
  foldl (λ st b, set_global b.1 b.2 st) (State ∅ []) module_body.

(** [openclawue.<name>]: attribute access on a module reads the module's
    dictionary; a [property] found there is returned as it is, since
    descriptors only act when found on the type of an object. *)
Definition module_getattr (name : string) (st : state)
  : outcome gvalue * state :=
  match globals st !! name with
  | Some v => (Return v, st)
  | None =>
      (Raise (Exn AttributeError
                ("module 'openclawue' has no attribute '" +:+ name +:+ "'")), st)
  end.

Definition is_unreal_available : bool := _UNREAL_AVAILABLE.

Definition discover_module (module_name : string) (kwargs : gmap string value)
  : envelope :=
  if negb _UNREAL_AVAILABLE
  then {[ "error" := VStr "Unreal Engine Python API not available" ]}
  else {[ "module" := VStr module_name;
          "classes" := VList [];
          "functions" := VList [];
          "constants" := VList [] ]}.

Definition discover_class (class_name : string) (kwargs : gmap string value)
  : envelope :=
  if negb _UNREAL_AVAILABLE
  then {[ "error" := VStr "Unreal Engine Python API not available" ]}
  else {[ "class" := VStr class_name;
          "methods" := VList [];
          "properties" := VList [];
          "inheritance" := VList [] ]}.

Definition execute_python (code : string) : outcome envelope :=
  if negb _UNREAL_AVAILABLE
  then Return {[ "stdout" := VStr "";
                 "stderr" := VStr "Unreal Engine Python API not available";
                 "success" := VBool false ]}
  else
    try_except
      (ended (py_exec code);;
       Return {[ "stdout" := VStr "Execution completed";
                 "stderr" := VStr "";
                 "success" := VBool true ]})
      (λ e, Return {[ "stdout" := VStr "";
                      "stderr" := VStr (exn_str e);
                      "success" := VBool false ]}).

Definition list_subsystems : list string :=
  if negb _UNREAL_AVAILABLE then []
  else ["LevelEditorSubsystem"; "EditorAssetLibrary";
        "EditorLevelLibrary"; "EditorUtilityLibrary"].

End Host.

(** The [BaseService] part of an instance. *)
Definition base_of (o : object) : BaseService :=
  match o with
  | Obj_domain _ self => self
  | Obj_openclaw self => base self
  end.

(** A host interpreter for examples: it knows a handful of programs, with
    what CPython does on each, and rejects every other text. *)
Definition sample_exec (code : string) : exec_result :=
  if decide (code = "") then Exec "" (Return ())
  else if decide (code = "pass") then Exec "" (Return ())
  else if decide (code = "print('Hello from OpenClawUE!')")
  then Exec ("Hello from OpenClawUE!" +:+ String "010"%char "") (Return ())
  else if decide (code = "1/0")
  then Exec "" (Raise (Exn ZeroDivisionError "division by zero"))
  else if decide (code = "raise SystemExit")
  then Exec "" (Raise (Exn SystemExit ""))
  else if decide (code = "while True: pass") then Exec "" Diverge
  else Exec "" (Raise (Exn (OtherException "SyntaxError") "invalid syntax")).

End OpenClawUE.

(** ** Arguments and exceptions as arbitrary objects

    The annotations of the methods say [str], but nothing checks them, and
    an instance of a subclass of [str] is a [str].  Here an argument is an
    object with its own [__format__], an exception an object with its own
    [__str__], and the bodies are written again with every call they make
    on their arguments. *)

Module Objects.

Import Services OpenClawUE.

(** An exception object: its class and what [str(e)] does, which is to
    return a string or to raise in its turn. *)
Inductive pyexn : Type :=
| PyExn (cls : exn_class) (str : str_result)
with str_result : Type :=
| StrIs (s : string)
| StrRaises (e : pyexn).

Definition pe_class (e : pyexn) : exn_class :=
  match e with PyExn cls _ => cls end.

Definition pe_str (e : pyexn) : str_result :=
  match e with PyExn _ str => str end.

(** What a call does, with exceptions as objects. *)
Inductive result (A : Type) : Type :=
| Ret (a : A)
| Exc (e : pyexn)
| Div.
Arguments Ret {A} a.
Arguments Exc {A} e.
Arguments Div {A}.

#[export] Instance result_ret : MRet result := λ A a, Ret a.

#[export] Instance result_bind : MBind result := λ A B k m,
  match m with
  | Ret a => k a
  | Exc e => Exc e
  | Div => Div
  end.

(** An exception with a message is an exception object whose [__str__]
    returns it. *)
Definition of_exn (e : exn) : pyexn := PyExn (exn_type e) (StrIs (exn_str e)).

Definition of_outcome {A} (o : outcome A) : result A :=
  match o with
  | Return a => Ret a
  | Raise e => Exc (of_exn e)
  | Diverge => Div
  end.

(** [try: body  except Exception as e: handler e], the handler free to
    raise. *)
Definition try_except_obj {A} (body : result A) (handler : pyexn → result A)
  : result A :=
  match body with
  | Exc e => if is_Exception (pe_class e) then handler e else Exc e
  | r => r
  end.

(** An argument: the value stored when the object is put into a
    dictionary, and what [format(x, "")] does, which is how an f-string
    uses it. *)
Record pyobj : Type := { as_value : value; obj_format : result string }.

(** A plain [str]: formatting returns the string itself. *)
Definition of_str (s : string) : pyobj :=
  {| as_value := VStr s; obj_format := Ret s |}.

(** [BaseService._format_error]: [str(error)] is evaluated here, inside
    the handler, and is not guarded. *)
Definition _format_error_obj (error : pyexn) : result envelope :=
  match pe_str error with
  | StrIs s => Ret (_format_error (Exn (pe_class error) s))
  | StrRaises e => Exc e
  end.

(** A call of a domain-service method on arbitrary objects.  [location]
    and [rotation] are only stored, never formatted. *)
Inductive domain_call_obj : Type :=
| ObjCall_create_blueprint (name parent_class path : pyobj)
| ObjCall_add_variable (blueprint_path name var_type default_value : pyobj)
| ObjCall_compile_blueprint (blueprint_path : pyobj)
| ObjCall_create_material (name path : pyobj)
| ObjCall_create_material_instance (parent_material name path : pyobj)
| ObjCall_create_widget_blueprint (name path parent_class : pyobj)
| ObjCall_add_widget_component (widget_path component_type name parent : pyobj)
| ObjCall_spawn_actor (actor_class : pyobj) (location rotation : value)
| ObjCall_get_all_actors
| ObjCall_create_animation_sequence (name path skeleton : pyobj)
| ObjCall_create_niagara_system (name path template : pyobj)
| ObjCall_create_input_action (name path value_type : pyobj)
| ObjCall_search_assets (search_term asset_type : pyobj).

(** The [asset_path] and [message] entries shared by the creating
    methods: [f"{path}/{name}"] formats [path] then [name], the message
    formats [name] again. *)
Definition created (kind : string) (name path : pyobj) : result envelope :=
  p ← obj_format path;
  n ← obj_format name;
  m ← obj_format name;
  Ret {[ "success" := VBool true;
         "asset_path" := VStr (p +:+ "/" +:+ n);
         "message" := VStr (kind +:+ " '" +:+ m +:+ "' created successfully") ]}.

(** The block under [try:] of each method, in the order the dictionary
    display evaluates its entries. *)
Definition try_body (self : BaseService) (c : domain_call_obj)
  : result envelope :=
  of_outcome (_check_unreal self);;
  match c with
  | ObjCall_create_blueprint name _ path => created "Blueprint" name path
  | ObjCall_add_variable blueprint_path name var_type _ =>
      n ← obj_format name;
      b ← obj_format blueprint_path;
      Ret {[ "success" := VBool true;
             "variable_name" := as_value name;
             "variable_type" := as_value var_type;
             "message" := VStr ("Variable '" +:+ n +:+ "' added to " +:+ b) ]}
  | ObjCall_compile_blueprint blueprint_path =>
      b ← obj_format blueprint_path;
      Ret {[ "success" := VBool true;
             "message" := VStr ("Blueprint " +:+ b +:+ " compiled successfully") ]}
  | ObjCall_create_material name path => created "Material" name path
  | ObjCall_create_material_instance _ name path =>
      created "Material Instance" name path
  | ObjCall_create_widget_blueprint name path _ =>
      created "Widget Blueprint" name path
  | ObjCall_add_widget_component widget_path component_type name _ =>
      n ← obj_format name;
      w ← obj_format widget_path;
      Ret {[ "success" := VBool true;
             "component_name" := as_value name;
             "component_type" := as_value component_type;
             "message" := VStr ("Component '" +:+ n +:+ "' added to " +:+ w) ]}
  | ObjCall_spawn_actor actor_class location rotation =>
      let rotation :=
        if is_None rotation
        then VList [VFloat (S754_zero false); VFloat (S754_zero false);
                    VFloat (S754_zero false)]
        else rotation in
      a ← obj_format actor_class;
      Ret {[ "success" := VBool true;
             "actor_class" := as_value actor_class;
             "location" := location;
             "rotation" := rotation;
             "message" := VStr ("Actor of class '" +:+ a +:+ "' spawned successfully") ]}
  | ObjCall_get_all_actors =>
      Ret {[ "success" := VBool true;
             "actors" := VList [];
             "count" := VInt 0;
             "message" := VStr "No actors in level (stub mode)" ]}
  | ObjCall_create_animation_sequence name path _ =>
      created "Animation Sequence" name path
  | ObjCall_create_niagara_system name path _ =>
      created "Niagara System" name path
  | ObjCall_create_input_action name path _ =>
      created "Input Action" name path
  | ObjCall_search_assets _ _ =>
      Ret {[ "success" := VBool true;
             "assets" := VList [];
             "count" := VInt 0;
             "message" := VStr "No assets found (stub mode)" ]}
  end.

(** Every method is its [try] block under
    [except Exception as e: return self._format_error(e)]. *)
Definition invoke_obj (self : BaseService) (c : domain_call_obj)
  : result envelope :=
  try_except_obj (try_body self c) _format_error_obj.

(** The objects a body formats, in the order it formats them. *)
Definition formatted (c : domain_call_obj) : list pyobj :=
  match c with
  | ObjCall_create_blueprint name _ path
  | ObjCall_create_material name path
  | ObjCall_create_material_instance _ name path
  | ObjCall_create_widget_blueprint name path _
  | ObjCall_create_animation_sequence name path _
  | ObjCall_create_niagara_system name path _
  | ObjCall_create_input_action name path _ => [path; name; name]
  | ObjCall_add_variable blueprint_path name _ _ => [name; blueprint_path]
  | ObjCall_compile_blueprint blueprint_path => [blueprint_path]
  | ObjCall_add_widget_component widget_path _ name _ => [name; widget_path]
  | ObjCall_spawn_actor actor_class _ _ => [actor_class]
  | ObjCall_get_all_actors | ObjCall_search_assets _ _ => []
  end.

(** A call on plain strings, as a call on objects. *)
Definition plain (c : domain_call) : domain_call_obj :=
  match c with
  | Call_create_blueprint n pc p =>
      ObjCall_create_blueprint (of_str n) (of_str pc) (of_str p)
  | Call_add_variable bp n t d =>
      ObjCall_add_variable (of_str bp) (of_str n) (of_str t) (of_str d)
  | Call_compile_blueprint bp => ObjCall_compile_blueprint (of_str bp)
  | Call_create_material n p => ObjCall_create_material (of_str n) (of_str p)
  | Call_create_material_instance pm n p =>
      ObjCall_create_material_instance (of_str pm) (of_str n) (of_str p)
  | Call_create_widget_blueprint n p pc =>
      ObjCall_create_widget_blueprint (of_str n) (of_str p) (of_str pc)
  | Call_add_widget_component w t n p =>
      ObjCall_add_widget_component (of_str w) (of_str t) (of_str n) (of_str p)
  | Call_spawn_actor a l r => ObjCall_spawn_actor (of_str a) l r
  | Call_get_all_actors => ObjCall_get_all_actors
  | Call_create_animation_sequence n p sk =>
      ObjCall_create_animation_sequence (of_str n) (of_str p) (of_str sk)
  | Call_create_niagara_system n p t =>
      ObjCall_create_niagara_system (of_str n) (of_str p) (of_str t)
  | Call_create_input_action n p t =>
      ObjCall_create_input_action (of_str n) (of_str p) (of_str t)
  | Call_search_assets t a => ObjCall_search_assets (of_str t) (of_str a)
  end.

(** [OpenClawService.connect_to_openclaw] on an arbitrary [url]: the flag
    is assigned first, then the dictionary is built, formatting [url] for
    the message. *)
Definition connect_to_openclaw_obj (self : OpenClawService) (url : pyobj)
  : result envelope * OpenClawService :=
  let self := set_connected true self in
  (try_except_obj
     (u ← obj_format url;
      Ret {[ "success" := VBool true;
             "connected" := VBool true;
             "url" := as_value url;
             "message" := VStr ("Connected to OpenClaw Gateway at " +:+ u) ]})
     _format_error_obj,
   self).

(** An instance of a subclass of [str] whose [__format__] raises
    [SystemExit]: [class Name(str): def __format__(self, spec): raise
    SystemExit]. *)
Definition exiting_name : pyobj :=
  {| as_value := VStr "BP_TestActor";
     obj_format := Exc (PyExn SystemExit (StrIs "")) |}.

(** An instance of a subclass of [str] whose [__format__] raises
    [ValueError("bad name")]. *)
Definition refusing_name : pyobj :=
  {| as_value := VStr "BP_TestActor";
     obj_format := Exc (PyExn (OtherException "ValueError") (StrIs "bad name")) |}.

(** The host interpreter's [exec] with exceptions as objects. *)
Record exec_result_obj : Type :=
  ExecObj { printed_obj : string; ended_obj : result unit }.

Definition of_exec (r : exec_result) : exec_result_obj :=
  ExecObj (printed r) (of_outcome (ended r)).

(** [execute_python]: the handler evaluates [str(e)] while it builds the
    dictionary, after ["stdout": ""]. *)
Definition execute_python_obj (unreal_importable : bool)
  (py_exec : string → exec_result_obj) (code : string) : result envelope :=
  if negb (_UNREAL_AVAILABLE unreal_importable)
  then Ret {[ "stdout" := VStr "";
              "stderr" := VStr "Unreal Engine Python API not available";
              "success" := VBool false ]}
  else
    try_except_obj
      (ended_obj (py_exec code);;
       Ret {[ "stdout" := VStr "Execution completed";
              "stderr" := VStr "";
              "success" := VBool true ]})
      (λ e, match pe_str e with
            | StrIs s => Ret {[ "stdout" := VStr "";
                                "stderr" := VStr s;
                                "success" := VBool false ]}
            | StrRaises e' => Exc e'
            end).

(** An instance of a class [U] below [Exception] whose [__str__] returns
    [None], so that [str(e)] raises [TypeError]. *)
Definition unprintable : pyexn :=
  PyExn (OtherException "U")
        (StrRaises (PyExn TypeError
                      (StrIs "__str__ returned non-string (type NoneType)"))).

(** A host for examples that also knows the one-line program which makes
    such a class and raises an instance of it; every other program is run
    by [sample_exec]. *)
Definition sample_exec_obj (code : string) : exec_result_obj :=
  if decide (code =
             "raise type('U', (Exception,), {'__str__': lambda s: None})()")
  then ExecObj "" (Exc unprintable)
  else of_exec (sample_exec code).

End Objects.

(** * Properties *)

Import Services OpenClawUE Objects.

(** Lookups of literal keys in a dictionary display. *)
Ltac env_lookup :=
  repeat first
    [ rewrite lookup_insert_eq
    | rewrite lookup_insert_ne by (intro; discriminate)
    | rewrite lookup_singleton_eq
    | rewrite lookup_singleton_ne by (intro; discriminate)
    | rewrite lookup_empty ].

Section BaseServiceFacts.

Implicit Types (self : BaseService) (c : domain_call).

Lemma _check_unreal_false self :
  _unreal_available self = false → _check_unreal self = Raise unavailable.
Proof. unfold _check_unreal. intros ->. reflexivity. Qed.

Lemma _check_unreal_true self :
  _unreal_available self = true → _check_unreal self = Return true.
Proof. unfold _check_unreal. intros ->. reflexivity. Qed.

(** With the host absent every domain method ends in the handler. *)
Lemma invoke_unavailable self c :
  _unreal_available self = false →
  invoke self c = Return (_format_error unavailable).
Proof.
  intros H. destruct c; cbn [invoke];
    unfold create_blueprint, add_variable, compile_blueprint, create_material,
      create_material_instance, create_widget_blueprint, add_widget_component,
      spawn_actor, get_all_actors, create_animation_sequence,
      create_niagara_system, create_input_action, search_assets;
    rewrite (_check_unreal_false _ H); reflexivity.
Qed.

(** With the host present the body of a method runs to its [return]. *)
Lemma create_blueprint_available self name parent_class path :
  _unreal_available self = true →
  create_blueprint self name parent_class path =
  Return {[ "success" := VBool true;
            "asset_path" := VStr (path +:+ "/" +:+ name);
            "message" := VStr ("Blueprint '" +:+ name +:+ "' created successfully") ]}.
Proof.
  intros H. unfold create_blueprint.
  rewrite (_check_unreal_true _ H). reflexivity.
Qed.

Lemma spawn_actor_available self actor_class location rotation :
  _unreal_available self = true →
  spawn_actor self actor_class location rotation =
  Return {[ "success" := VBool true;
            "actor_class" := VStr actor_class;
            "location" := location;
            "rotation" :=
              (if is_None rotation
               then VList [VFloat (S754_zero false); VFloat (S754_zero false);
                           VFloat (S754_zero false)]
               else rotation);
            "message" := VStr ("Actor of class '" +:+ actor_class +:+ "' spawned successfully") ]}.
Proof.
  intros H. unfold spawn_actor.
  rewrite (_check_unreal_true _ H). reflexivity.
Qed.

(** Every domain method returns, and what it returns has the envelope
    shape with the fields of its [try] body. *)
Lemma invoke_well_formed self c :
  ∃ e, invoke self c = Return e ∧ well_formed (output_fields c) e.
Proof.
  destruct (_unreal_available self) eqn:H.
  - destruct c; cbn [invoke];
      unfold create_blueprint, add_variable, compile_blueprint, create_material,
        create_material_instance, create_widget_blueprint, add_widget_component,
        spawn_actor, get_all_actors, create_animation_sequence,
        create_niagara_system, create_input_action, search_assets;
      rewrite (_check_unreal_true _ H); cbn;
      (eexists; split; [reflexivity|]);
      (exists true; split; [by env_lookup|]; split; [discriminate|]);
      intros _; cbn [output_fields];
      repeat (apply Forall_cons; split; [by env_lookup; eexists|]);
      apply Forall_nil_2.
  - rewrite (invoke_unavailable _ _ H). eexists; split; [reflexivity|].
    exists false. unfold _format_error. split; [by env_lookup|].
    split; [|discriminate]. intros _. by env_lookup; eexists.
Qed.

End BaseServiceFacts.

Section DomainServices.

Implicit Types (self : BaseService) (c : domain_call).

(** C3.  For every method of the eight domain services and every argument:
    on an instance whose availability flag is [False] the call returns an
    envelope with [success] equal to [False] and an [error] field holding a
    non-empty string. *)
Theorem C3_unavailable_yields_error self c :
  _unreal_available self = false →
  ∃ (e : envelope) (msg : string),
    invoke self c = Return e ∧
    e !! "success" = Some (VBool false) ∧
    e !! "error" = Some (VStr msg) ∧
    msg ≠ "".
Proof.
  intros H. exists (_format_error unavailable), (exn_str unavailable).
  split; [by apply invoke_unavailable|].
  unfold _format_error. split; [by env_lookup|]. split; [by env_lookup|].
  discriminate.
Qed.

Lemma C3_witness :
  ∃ (e : envelope) (msg : string),
    invoke (BaseService__init__ false)
      (Call_create_blueprint "BP_TestActor" "Actor" "/Game/Blueprints") = Return e ∧
    e !! "success" = Some (VBool false) ∧
    e !! "error" = Some (VStr msg) ∧
    msg ≠ "".
Proof.
  apply (C3_unavailable_yields_error (BaseService__init__ false)).
  reflexivity.
Defined.

(** C7.  With the host available, [create_blueprint(name, parent_class,
    path)] returns an envelope whose [asset_path] is the path, a slash and
    the name. *)
Theorem C7_asset_path self name parent_class path :
  _unreal_available self = true →
  ∃ e : envelope,
    create_blueprint self name parent_class path = Return e ∧
    e !! "asset_path" = Some (VStr (path +:+ "/" +:+ name)).
Proof.
  intros H. eexists. split; [by apply create_blueprint_available|].
  by env_lookup.
Qed.

Lemma C7_witness :
  ∃ e : envelope,
    create_blueprint (BaseService__init__ true)
      "BP_TestActor" "Actor" "/Game/Blueprints" = Return e ∧
    e !! "asset_path" = Some (VStr "/Game/Blueprints/BP_TestActor").
Proof.
  apply (C7_asset_path (BaseService__init__ true)
           "BP_TestActor" "Actor" "/Game/Blueprints").
  reflexivity.
Defined.

(** C9.  With the host available, [spawn_actor] called with [rotation]
    left out or [None] returns a success envelope whose [rotation] is
    [[0.0, 0.0, 0.0]] and whose [location] is the argument passed in. *)
Theorem C9_spawn_actor_default_rotation self actor_class location :
  _unreal_available self = true →
  ∃ e : envelope,
    spawn_actor self actor_class location VNone = Return e ∧
    spawn_actor_default self actor_class location = Return e ∧
    e !! "success" = Some (VBool true) ∧
    e !! "rotation" =
      Some (VList [VFloat (S754_zero false); VFloat (S754_zero false);
                   VFloat (S754_zero false)]) ∧
    e !! "location" = Some location.
Proof.
  intros H. unfold spawn_actor_default.
  rewrite (spawn_actor_available _ _ _ _ H). cbn [is_None].
  eexists. split; [reflexivity|]. split; [reflexivity|].
  repeat split; by env_lookup.
Qed.

Lemma C9_witness :
  ∃ e : envelope,
    spawn_actor (BaseService__init__ true) "StaticMeshActor"
      (VList [VInt 0; VInt 0; VInt 100]) VNone = Return e ∧
    spawn_actor_default (BaseService__init__ true) "StaticMeshActor"
      (VList [VInt 0; VInt 0; VInt 100]) = Return e ∧
    e !! "success" = Some (VBool true) ∧
    e !! "rotation" =
      Some (VList [VFloat (S754_zero false); VFloat (S754_zero false);
                   VFloat (S754_zero false)]) ∧
    e !! "location" = Some (VList [VInt 0; VInt 0; VInt 100]).
Proof.
  apply (C9_spawn_actor_default_rotation (BaseService__init__ true)).
  reflexivity.
Defined.

End DomainServices.

Section OpenClaw.

Implicit Types (self : OpenClawService) (c : openclaw_call).

Lemma connect_sets_flag self url :
  _connected (connect_to_openclaw self url).2 = true.
Proof. reflexivity. Qed.

Lemma send_keeps_instance self command :
  (send_to_openclaw self command).2 = self.
Proof. reflexivity. Qed.

Lemma dashboard_keeps_instance self :
  (create_dashboard self).2 = self.
Proof. reflexivity. Qed.

(** One call never clears the flag. *)
Lemma invoke_openclaw_keeps_connected self c :
  _connected self = true → _connected (invoke_openclaw self c).2 = true.
Proof. destruct c; cbn; auto. Qed.

(** Nor does a sequence of calls: induction on the sequence, generalised
    over the instance the sequence starts from. *)
Lemma run_openclaw_keeps_connected cs : ∀ self,
  _connected self = true → _connected (run_openclaw self cs) = true.
Proof.
  unfold run_openclaw.
  induction cs as [|c cs IH]; intros self H; cbn [foldl]; [exact H|].
  apply IH, invoke_openclaw_keeps_connected, H.
Qed.

Lemma send_connected self command :
  _connected self = true →
  (send_to_openclaw self command).1 =
  Return {[ "success" := VBool true;
            "command" := command;
            "response" :=
              VDict {[ "status" := VStr "received";
                       "message" := VStr "Command processed (stub)" ]} ]}.
Proof. unfold send_to_openclaw. intros ->. reflexivity. Qed.

Lemma invoke_openclaw_well_formed self c :
  ∃ e, (invoke_openclaw self c).1 = Return e ∧
       well_formed (openclaw_output_fields c) e.
Proof.
  destruct c as [url|command|]; cbn -[well_formed].
  3: { eexists; split; [reflexivity|]. exists true.
       split; [by env_lookup|]. split; [discriminate|]. intros _.
       repeat (apply Forall_cons; split; [by env_lookup; eexists|]).
       apply Forall_nil_2. }
  - eexists; split; [reflexivity|]. exists true.
    split; [by env_lookup|]. split; [discriminate|]. intros _.
    repeat (apply Forall_cons; split; [by env_lookup; eexists|]).
    apply Forall_nil_2.
  - destruct (_connected self); cbn -[well_formed];
      (eexists; split; [reflexivity|]).
    + exists true. split; [by env_lookup|]. split; [discriminate|]. intros _.
      repeat (apply Forall_cons; split; [by env_lookup; eexists|]).
      apply Forall_nil_2.
    + exists false. split; [by env_lookup|]. split; [|discriminate].
      intros _. by env_lookup; eexists.
Qed.

(** C5.  [send_to_openclaw] on an instance whose flag is [False] returns
    [success=False] with the error "Not connected to OpenClaw";
    [connect_to_openclaw] with any URL sets the flag and returns success;
    and once [connect_to_openclaw] has been called, [send_to_openclaw]
    (directly, or after further calls) returns [success=True] with the
    command inside the stub response. *)
Theorem C5_send_needs_connect :
  (∀ self command,
     _connected self = false →
     (send_to_openclaw self command).1 =
     Return {[ "success" := VBool false;
               "error" := VStr "Not connected to OpenClaw" ]}) ∧
  (∀ self url,
     _connected (connect_to_openclaw self url).2 = true ∧
     ∃ e : envelope,
       (connect_to_openclaw self url).1 = Return e ∧
       e !! "success" = Some (VBool true) ∧
       e !! "connected" = Some (VBool true) ∧
       e !! "url" = Some (VStr url)) ∧
  (∀ self url cs command,
     ∃ e : envelope,
       (send_to_openclaw (run_openclaw (connect_to_openclaw self url).2 cs)
          command).1 = Return e ∧
       e !! "success" = Some (VBool true) ∧
       e !! "command" = Some command ∧
       is_Some (e !! "response")).
Proof.
  split; [|split].
  - intros self command H. unfold send_to_openclaw. rewrite H. reflexivity.
  - intros self url. split; [apply connect_sets_flag|].
    eexists. split; [reflexivity|]. repeat split; by env_lookup.
  - intros self url cs command.
    rewrite send_connected
      by apply run_openclaw_keeps_connected, connect_sets_flag.
    eexists. split; [reflexivity|].
    repeat split; [by env_lookup..|]. by env_lookup; eexists.
Qed.

Lemma C5_witness :
  (send_to_openclaw (OpenClawService__init__ false) (VStr "ping")).1 =
  Return {[ "success" := VBool false;
            "error" := VStr "Not connected to OpenClaw" ]}.
Proof.
  apply (proj1 C5_send_needs_connect (OpenClawService__init__ false)).
  reflexivity.
Defined.

(** C6.  The connection is a two-state machine: [connect_to_openclaw]
    leads to Connected, [send_to_openclaw] and [create_dashboard] leave the
    state (and the whole instance) as it is, and no sequence of the three
    calls takes a connected instance back to disconnected. *)
Theorem C6_connected_is_absorbing :
  (∀ self c,
     transition (connection_of self) c
       (connection_of (invoke_openclaw self c).2)) ∧
  (∀ self c,
     connection_of self = Disconnected →
     connection_of (invoke_openclaw self c).2 = Connected →
     ∃ url, c = Call_connect_to_openclaw url) ∧
  (∀ self cs,
     _connected self = true → _connected (run_openclaw self cs) = true).
Proof.
  split; [|split].
  - intros self [url|command|]; cbn; constructor.
  - intros self [url|command|] H1 H2; cbn in H2; [by eexists|congruence..].
  - intros self cs. apply run_openclaw_keeps_connected.
Qed.

Lemma C6_witness :
  _connected
    (run_openclaw (connect_to_openclaw (OpenClawService__init__ true)
                     "ws://127.0.0.1:18789").2
       [Call_send_to_openclaw (VStr "ping"); Call_create_dashboard;
        Call_connect_to_openclaw "ws://localhost:1"; Call_create_dashboard])
  = true.
Proof.
  apply (proj2 (proj2 C6_connected_is_absorbing)).
  reflexivity.
Defined.

End OpenClaw.

Section Registry.

Variable unreal_importable : bool.

Implicit Types (st : state) (c : class_id).

(** [_get_service] on its own, handed a class and a slot that is empty:
    the first call constructs an instance and stores it in the slot, the
    second returns that very instance and changes nothing. *)
Lemma _get_service_constructs_once st c attr :
  default GNone (globals st !! attr) = GNone →
  ∃ l st',
    _get_service unreal_importable (GClass c) attr st = (Return (GRef l), st') ∧
    heap st' !! l = Some (construct unreal_importable c) ∧
    globals st' !! attr = Some (GRef l) ∧
    _get_service unreal_importable (GClass c) attr st' = (Return (GRef l), st').
Proof.
  intros H. unfold _get_service at 1. rewrite H. cbn.
  eexists _, _. split; [reflexivity|]. cbn. split; [|split].
  - rewrite lookup_app_r by lia. by rewrite Nat.sub_diag.
  - by rewrite lookup_insert_eq.
  - unfold _get_service. cbn. by rewrite lookup_insert_eq.
Qed.

(** After the module body has run, the name of each class is bound to its
    accessor and the slot is empty. *)
Lemma module_init_globals c :
  globals (module_init unreal_importable) !! global_name c =
    Some (GProperty (Lambda_get_service (global_name c) (instance_attr c))) ∧
  globals (module_init unreal_importable) !! instance_attr c = Some GNone.
Proof. destruct c; split; vm_compute; reflexivity. Qed.

(** C1, evaluated on the code.  After import, for every one of the nine
    domains: reading the accessor from the module yields the [property]
    object itself and leaves the slot empty; calling the accessor's getter
    reaches [_get_service] with that [property] object as the class, which
    raises [TypeError] in [service_class()] and again leaves the slot
    empty.  No lookup through an accessor constructs or caches an
    instance. *)
Theorem C1_accessors_never_construct c :
  let st := module_init unreal_importable in
  let accessor := Lambda_get_service (global_name c) (instance_attr c) in
  module_getattr (global_name c) st = (Return (GProperty accessor), st) ∧
  apply_lambda unreal_importable accessor st =
    (Raise (Exn TypeError "'property' object is not callable"), st) ∧
  globals st !! instance_attr c = Some GNone ∧
  heap st = [].
Proof.
  intros st accessor.
  destruct (module_init_globals c) as [Hname Hslot].
  split; [|split; [|split]].
  - unfold module_getattr. fold st in Hname. by rewrite Hname.
  - unfold apply_lambda. cbn [lam_class_global lam_instance_attr accessor].
    fold st in Hname, Hslot. rewrite Hname.
    unfold _get_service. rewrite Hslot. reflexivity.
  - exact Hslot.
  - reflexivity.
Qed.

End Registry.

Section ModuleFunctions.

Variable py_exec : string → exec_result.

(** The envelope of [execute_python] when the host is absent. *)
Lemma execute_python_unavailable code :
  execute_python false py_exec code =
  Return {[ "stdout" := VStr "";
            "stderr" := VStr "Unreal Engine Python API not available";
            "success" := VBool false ]}.
Proof. reflexivity. Qed.

(** [execute_python] by the way the executed code ends. *)
Lemma execute_python_cases code :
  execute_python true py_exec code =
  match ended (py_exec code) with
  | Return _ =>
      Return {[ "stdout" := VStr "Execution completed";
                "stderr" := VStr ""; "success" := VBool true ]}
  | Raise e =>
      if is_Exception (exn_type e)
      then Return {[ "stdout" := VStr ""; "stderr" := VStr (exn_str e);
                     "success" := VBool false ]}
      else Raise e
  | Diverge => Diverge
  end.
Proof.
  unfold execute_python. cbn [_UNREAL_AVAILABLE negb].
  destruct (ended (py_exec code)) as [[]|e|]; reflexivity.
Qed.

(** C4, as the code has it.  With the host available, on a host
    interpreter where ["1/0"] raises
    [ZeroDivisionError("division by zero")], [execute_python("1/0")]
    returns [success=False] with that message in the [stderr] field, and
    the envelope has the three keys [stdout], [stderr], [success] and no
    [error]; with the host absent it returns the fixed
    "Unreal Engine Python API not available" envelope, the text again in
    [stderr], for every code string. *)
Theorem C4_execute_python_errors out :
  py_exec "1/0" = Exec out (Raise (Exn ZeroDivisionError "division by zero")) →
  execute_python true py_exec "1/0" =
    Return {[ "stdout" := VStr "";
              "stderr" := VStr "division by zero";
              "success" := VBool false ]} ∧
  ∀ code,
    execute_python false py_exec code =
    Return {[ "stdout" := VStr "";
              "stderr" := VStr "Unreal Engine Python API not available";
              "success" := VBool false ]}.
Proof.
  intros H. split; [|apply execute_python_unavailable].
  rewrite execute_python_cases, H. reflexivity.
Qed.

(** C10.  With the host available, for every code string whose execution
    finishes without an exception, whatever it printed, [execute_python]
    returns the same envelope: [stdout] is "Execution completed", [stderr]
    is empty, and the printed text appears nowhere in it. *)
Theorem C10_stdout_is_fixed code out :
  py_exec code = Exec out (Return ()) →
  execute_python true py_exec code =
    Return {[ "stdout" := VStr "Execution completed";
              "stderr" := VStr "";
              "success" := VBool true ]}.
Proof. intros H. rewrite execute_python_cases, H. reflexivity. Qed.

End ModuleFunctions.

Lemma C4_witness :
  execute_python true sample_exec "1/0" =
    Return {[ "stdout" := VStr "";
              "stderr" := VStr "division by zero";
              "success" := VBool false ]} ∧
  ∀ code,
    execute_python false sample_exec code =
    Return {[ "stdout" := VStr "";
              "stderr" := VStr "Unreal Engine Python API not available";
              "success" := VBool false ]}.
Proof. apply (C4_execute_python_errors sample_exec ""). reflexivity. Defined.

Lemma C10_witness :
  execute_python true sample_exec "print('Hello from OpenClawUE!')" =
    Return {[ "stdout" := VStr "Execution completed";
              "stderr" := VStr "";
              "success" := VBool true ]}.
Proof.
  apply (C10_stdout_is_fixed sample_exec "print('Hello from OpenClawUE!')"
           ("Hello from OpenClawUE!" +:+ String "010"%char "")).
  reflexivity.
Defined.

Section Envelopes.

(** [discover_module] with the host absent returns the single-entry
    dictionary [{"error": ...}]: it has no [success] field, so it does not
    have the envelope shape; with the host present it returns the metadata
    shape, again without [success]. *)
Lemma C2_discover_module_has_no_success :
  ¬ well_formed ["module"; "classes"; "functions"; "constants"]
      (discover_module false "unreal" ∅) ∧
  ¬ well_formed ["module"; "classes"; "functions"; "constants"]
      (discover_module true "unreal" ∅).
Proof.
  split; intros (b & H & _); cbn in H; revert H; env_lookup; discriminate.
Qed.

(** C2, as the code has it.  Every service method, on every instance (host
    available or not) and every argument, returns an envelope with a
    boolean [success], an [error] when [success] is [False] and the fields
    of its [try] body when [success] is [True].  [execute_python], when it
    returns, returns a boolean [success] together with [stdout] and
    [stderr] (the failure text is in [stderr]; there is no [error] key).
    [discover_module] and [discover_class] return dictionaries without a
    [success] field: [error] alone when the host is absent, the four
    metadata fields when it is present. *)
Theorem C2_envelope_shapes :
  (∀ (self : BaseService) (c : domain_call),
     ∃ e, invoke self c = Return e ∧ well_formed (output_fields c) e) ∧
  (∀ (self : OpenClawService) (c : openclaw_call),
     ∃ e, (invoke_openclaw self c).1 = Return e ∧
          well_formed (openclaw_output_fields c) e) ∧
  (∀ (avail : bool) (py_exec : string → exec_result) (code : string)
     (e : envelope),
     execute_python avail py_exec code = Return e →
     (∃ b : bool, e !! "success" = Some (VBool b)) ∧
     is_Some (e !! "stdout") ∧ is_Some (e !! "stderr") ∧
     e !! "error" = None) ∧
  (∀ (avail : bool) (name : string) (kwargs : gmap string value),
     discover_module avail name kwargs !! "success" = None ∧
     discover_class avail name kwargs !! "success" = None) ∧
  (∀ (name : string) (kwargs : gmap string value),
     discover_module false name kwargs =
       {[ "error" := VStr "Unreal Engine Python API not available" ]} ∧
     discover_class false name kwargs =
       {[ "error" := VStr "Unreal Engine Python API not available" ]} ∧
     Forall (λ k, is_Some (discover_module true name kwargs !! k))
       ["module"; "classes"; "functions"; "constants"] ∧
     Forall (λ k, is_Some (discover_class true name kwargs !! k))
       ["class"; "methods"; "properties"; "inheritance"]).
Proof.
  split; [exact invoke_well_formed|].
  split; [exact invoke_openclaw_well_formed|].
  split; [|split].
  - intros [] py_exec code e.
    + rewrite execute_python_cases.
      destruct (ended (py_exec code)) as [[]|x|]; [| |discriminate].
      * intros [= <-]. split; [exists true; by env_lookup|].
        repeat split; by env_lookup; try eexists.
      * destruct (is_Exception (exn_type x)); [|discriminate].
        intros [= <-]. split; [exists false; by env_lookup|].
        repeat split; by env_lookup; try eexists.
    + rewrite execute_python_unavailable.
      intros [= <-]. split; [exists false; by env_lookup|].
      repeat split; by env_lookup; try eexists.
  - intros [] name kwargs; split; cbn; by env_lookup.
  - intros name kwargs. split; [reflexivity|]. split; [reflexivity|].
    split; cbn;
      repeat (apply Forall_cons; split; [by env_lookup; eexists|]);
      apply Forall_nil_2.
Qed.

Lemma C2_witness :
  (∃ b : bool,
     ({[ "stdout" := VStr "Execution completed"; "stderr" := VStr "";
         "success" := VBool true ]} : envelope) !! "success" = Some (VBool b)) ∧
  is_Some (({[ "stdout" := VStr "Execution completed"; "stderr" := VStr "";
               "success" := VBool true ]} : envelope) !! "stdout") ∧
  is_Some (({[ "stdout" := VStr "Execution completed"; "stderr" := VStr "";
               "success" := VBool true ]} : envelope) !! "stderr") ∧
  ({[ "stdout" := VStr "Execution completed"; "stderr" := VStr "";
      "success" := VBool true ]} : envelope) !! "error" = None.
Proof.
  apply (proj1 (proj2 (proj2 C2_envelope_shapes)) true sample_exec "pass").
  reflexivity.
Defined.

End Envelopes.

(** * Further properties of the domain services *)

Section DomainServicesMore.

Implicit Types (self : BaseService) (c : domain_call).

(** The [success] flag of every domain method is the availability flag of
    the instance: the call succeeds exactly when the host is there. *)
Theorem success_is_availability self c :
  get_field "success" (invoke self c) = Some (VBool (_unreal_available self)).
Proof.
  destruct (_unreal_available self) eqn:H.
  - destruct c; cbn [invoke];
      unfold create_blueprint, add_variable, compile_blueprint, create_material,
        create_material_instance, create_widget_blueprint, add_widget_component,
        spawn_actor, get_all_actors, create_animation_sequence,
        create_niagara_system, create_input_action, search_assets;
      rewrite (_check_unreal_true _ H); cbn; by env_lookup.
  - rewrite (invoke_unavailable _ _ H). cbn. unfold _format_error.
    by env_lookup.
Qed.

(** With the host available, the other six asset-creating methods build
    [asset_path] as [create_blueprint] does: the path, a slash, the name. *)
Theorem asset_paths_join_path_and_name self name path other :
  _unreal_available self = true →
  let joined := Some (VStr (path +:+ "/" +:+ name)) in
  get_field "asset_path" (create_material self name path) = joined ∧
  get_field "asset_path" (create_material_instance self other name path) = joined ∧
  get_field "asset_path" (create_widget_blueprint self name path other) = joined ∧
  get_field "asset_path" (create_animation_sequence self name path other) = joined ∧
  get_field "asset_path" (create_niagara_system self name path other) = joined ∧
  get_field "asset_path" (create_input_action self name path other) = joined.
Proof.
  intros H joined.
  unfold create_material, create_material_instance, create_widget_blueprint,
    create_animation_sequence, create_niagara_system, create_input_action.
  rewrite (_check_unreal_true _ H). cbn.
  repeat split; by env_lookup.
Qed.

Lemma asset_paths_join_path_and_name_witness :
  get_field "asset_path"
    (create_material (BaseService__init__ true) "M_Test" "/Game/Materials")
  = Some (VStr "/Game/Materials/M_Test").
Proof.
  apply (asset_paths_join_path_and_name (BaseService__init__ true)
           "M_Test" "/Game/Materials" "").
  reflexivity.
Defined.

(** The methods that do not create an asset return no [asset_path], and no
    failure envelope has one either. *)
Theorem asset_path_only_from_creators self c :
  is_Some (get_field "asset_path" (invoke self c)) ↔
  _unreal_available self = true ∧
  In "asset_path" (output_fields c).
Proof.
  destruct (_unreal_available self) eqn:H.
  - destruct c; cbn [invoke output_fields];
      unfold create_blueprint, add_variable, compile_blueprint, create_material,
        create_material_instance, create_widget_blueprint, add_widget_component,
        spawn_actor, get_all_actors, create_animation_sequence,
        create_niagara_system, create_input_action, search_assets;
      rewrite (_check_unreal_true _ H); cbn; env_lookup;
      (split; [intros [v Hv]; first [discriminate | split; [done|by left]]
              | intros [_ Hin];
                first [by eexists
                      | exfalso; repeat (destruct Hin as [Hin|Hin];
                                         [discriminate|]); exact Hin]]).
  - rewrite (invoke_unavailable _ _ H). cbn. unfold _format_error. env_lookup.
    split; [intros [v Hv]; discriminate|intros [? _]; discriminate].
Qed.

(** The stub bodies do not look at [parent_class], [default_value],
    [parent_material], [parent], [skeleton], [template], [value_type],
    [search_term] or [asset_type]: changing any of them changes nothing in
    the result. *)
Theorem unused_arguments self (a b name path x y : string) :
  create_blueprint self name a path = create_blueprint self name b path ∧
  add_variable self path name x a = add_variable self path name x b ∧
  create_material_instance self a name path =
    create_material_instance self b name path ∧
  create_widget_blueprint self name path a =
    create_widget_blueprint self name path b ∧
  add_widget_component self path x name a =
    add_widget_component self path x name b ∧
  create_animation_sequence self name path a =
    create_animation_sequence self name path b ∧
  create_niagara_system self name path a =
    create_niagara_system self name path b ∧
  create_input_action self name path a = create_input_action self name path b ∧
  search_assets self a x = search_assets self b y.
Proof. repeat split. Qed.

(** The sequence of the example script: create a Blueprint, add a variable
    at the returned [asset_path], compile at the returned [asset_path].
    With the host available all three succeed, and the two later messages
    name the asset as path, slash, name. *)
Theorem create_then_add_then_compile self name parent_class path
    vname vtype vdefault :
  _unreal_available self = true →
  ∃ p : string,
    get_field "asset_path" (create_blueprint self name parent_class path)
      = Some (VStr p) ∧
    add_variable self p vname vtype vdefault =
      Return {[ "success" := VBool true;
                "variable_name" := VStr vname;
                "variable_type" := VStr vtype;
                "message" := VStr ("Variable '" +:+ vname +:+ "' added to "
                                   +:+ path +:+ "/" +:+ name) ]} ∧
    compile_blueprint self p =
      Return {[ "success" := VBool true;
                "message" := VStr ("Blueprint " +:+ (path +:+ "/" +:+ name)
                                   +:+ " compiled successfully") ]}.
Proof.
  intros H. exists (path +:+ "/" +:+ name).
  rewrite (create_blueprint_available _ _ _ _ H).
  unfold add_variable, compile_blueprint.
  rewrite (_check_unreal_true _ H). cbn.
  split; [by env_lookup|]. split; reflexivity.
Qed.

Lemma create_then_add_then_compile_witness :
  ∃ p : string,
    get_field "asset_path"
      (create_blueprint (BaseService__init__ true)
         "BP_TestActor" "Actor" "/Game/Blueprints") = Some (VStr p) ∧
    add_variable (BaseService__init__ true) p "Health" "Float" "100.0" =
      Return {[ "success" := VBool true;
                "variable_name" := VStr "Health";
                "variable_type" := VStr "Float";
                "message" :=
                  VStr "Variable 'Health' added to /Game/Blueprints/BP_TestActor" ]} ∧
    compile_blueprint (BaseService__init__ true) p =
      Return {[ "success" := VBool true;
                "message" :=
                  VStr "Blueprint /Game/Blueprints/BP_TestActor compiled successfully" ]}.
Proof.
  apply (create_then_add_then_compile (BaseService__init__ true)
           "BP_TestActor" "Actor" "/Game/Blueprints" "Health" "Float" "100.0").
  reflexivity.
Defined.

(** A [rotation] that is not [None] is returned as it was passed, next to
    the [location] and the [actor_class]. *)
Theorem spawn_actor_keeps_rotation self actor_class location rotation :
  _unreal_available self = true →
  is_None rotation = false →
  get_field "rotation" (spawn_actor self actor_class location rotation)
    = Some rotation ∧
  get_field "location" (spawn_actor self actor_class location rotation)
    = Some location ∧
  get_field "actor_class" (spawn_actor self actor_class location rotation)
    = Some (VStr actor_class).
Proof.
  intros H Hr. rewrite (spawn_actor_available _ _ _ _ H), Hr. cbn.
  repeat split; by env_lookup.
Qed.

Lemma spawn_actor_keeps_rotation_witness :
  get_field "rotation"
    (spawn_actor (BaseService__init__ true) "StaticMeshActor"
       (VList [VInt 0; VInt 0; VInt 100]) (VList [VInt 0; VInt 90; VInt 0]))
    = Some (VList [VInt 0; VInt 90; VInt 0]) ∧
  get_field "location"
    (spawn_actor (BaseService__init__ true) "StaticMeshActor"
       (VList [VInt 0; VInt 0; VInt 100]) (VList [VInt 0; VInt 90; VInt 0]))
    = Some (VList [VInt 0; VInt 0; VInt 100]) ∧
  get_field "actor_class"
    (spawn_actor (BaseService__init__ true) "StaticMeshActor"
       (VList [VInt 0; VInt 0; VInt 100]) (VList [VInt 0; VInt 90; VInt 0]))
    = Some (VStr "StaticMeshActor").
Proof.
  apply (spawn_actor_keeps_rotation (BaseService__init__ true)); reflexivity.
Defined.

(** [_format_error] keeps the message and the class name apart: two
    exceptions with the same error envelope have the same [str] and the
    same class name. *)
Theorem _format_error_keeps_message_and_class (e1 e2 : exn) :
  _format_error e1 = _format_error e2 →
  exn_str e1 = exn_str e2 ∧
  class_name (exn_type e1) = class_name (exn_type e2).
Proof.
  intros H. split.
  - assert (_format_error e1 !! "error" = _format_error e2 !! "error") as E
      by (by rewrite H).
    unfold _format_error in E. revert E. env_lookup. by intros [= ->].
  - assert (_format_error e1 !! "error_type" = _format_error e2 !! "error_type")
      as E by (by rewrite H).
    unfold _format_error in E. revert E. env_lookup. by intros [= ->].
Qed.

Lemma _format_error_keeps_message_and_class_witness :
  exn_str (Exn (OtherException "KeyError") "missing") =
    exn_str (Exn (OtherBaseException "KeyError") "missing") ∧
  class_name (exn_type (Exn (OtherException "KeyError") "missing")) =
    class_name (exn_type (Exn (OtherBaseException "KeyError") "missing")).
Proof.
  apply (_format_error_keeps_message_and_class
           (Exn (OtherException "KeyError") "missing")
           (Exn (OtherBaseException "KeyError") "missing")).
  reflexivity.
Defined.

End DomainServicesMore.

(** * Further properties of OpenClawService *)

Section OpenClawMore.

Implicit Types (self : OpenClawService) (c : openclaw_call).

(** What a sequence of calls does to an instance: nothing when no call in
    it is [connect_to_openclaw], and otherwise it sets the flag and leaves
    the rest.  Connecting twice is connecting once. *)
Theorem run_openclaw_result cs : ∀ self,
  run_openclaw self cs =
  if existsb is_connect cs then set_connected true self else self.
Proof.
  unfold run_openclaw.
  induction cs as [|c cs IH]; intros self; [reflexivity|].
  cbn [foldl existsb]. rewrite IH.
  destruct c as [url|command|]; cbn; [|reflexivity..].
  by destruct (existsb is_connect cs).
Qed.

(** The flag after a sequence of calls is the flag before or a
    [connect_to_openclaw] in the sequence, and the availability flag of
    the instance is never touched. *)
Lemma run_openclaw_flags self cs :
  _connected (run_openclaw self cs) = _connected self || existsb is_connect cs ∧
  base (run_openclaw self cs) = base self.
Proof.
  generalize dependent self. unfold run_openclaw.
  induction cs as [|c cs IH]; intros self.
  - cbn. by rewrite orb_false_r.
  - cbn [foldl existsb]. destruct (IH (invoke_openclaw self c).2) as [-> ->].
    destruct c as [url|command|]; cbn; [|done..].
    by rewrite orb_true_r.
Qed.

(** The three methods never consult the host: two instances with the same
    connection flag give the same envelope, whatever their availability
    flags. *)
Theorem openclaw_ignores_availability self1 self2 c :
  _connected self1 = _connected self2 →
  (invoke_openclaw self1 c).1 = (invoke_openclaw self2 c).1.
Proof.
  intros H. destruct c as [url|command|]; cbn; [reflexivity| |reflexivity].
  by rewrite H.
Qed.

Lemma openclaw_ignores_availability_witness :
  (invoke_openclaw (OpenClawService__init__ false)
     (Call_send_to_openclaw (VStr "ping"))).1 =
  (invoke_openclaw (OpenClawService__init__ true)
     (Call_send_to_openclaw (VStr "ping"))).1.
Proof.
  apply (openclaw_ignores_availability
           (OpenClawService__init__ false) (OpenClawService__init__ true)).
  reflexivity.
Defined.

(** The [success] flag of [send_to_openclaw] is the connection flag;
    [connect_to_openclaw] and [create_dashboard] succeed on every
    instance, connected or not, host or not. *)
Theorem openclaw_success_flags self url command :
  get_field "success" (send_to_openclaw self command).1
    = Some (VBool (_connected self)) ∧
  get_field "success" (connect_to_openclaw self url).1 = Some (VBool true) ∧
  get_field "success" (create_dashboard self).1 = Some (VBool true) ∧
  get_field "dashboard_url" (create_dashboard self).1
    = Some (VStr "http://127.0.0.1:3000/openclawue").
Proof.
  split; [|repeat split; cbn; by env_lookup].
  unfold send_to_openclaw. destruct (_connected self); cbn; by env_lookup.
Qed.

(** The "not connected" failure is built in place, not by
    [_format_error]: unlike the failure of a domain method it carries no
    [error_type]. *)
Theorem not_connected_has_no_error_type self command (service : BaseService)
    (c : domain_call) :
  _connected self = false →
  _unreal_available service = false →
  get_field "error_type" (send_to_openclaw self command).1 = None ∧
  get_field "error_type" (invoke service c) = Some (VStr "RuntimeError").
Proof.
  intros H1 H2. split.
  - unfold send_to_openclaw. rewrite H1. cbn. by env_lookup.
  - rewrite (invoke_unavailable _ _ H2). cbn. unfold _format_error.
    by env_lookup.
Qed.

Lemma not_connected_has_no_error_type_witness :
  get_field "error_type"
    (send_to_openclaw (OpenClawService__init__ false) (VStr "ping")).1 = None ∧
  get_field "error_type"
    (invoke (BaseService__init__ false) Call_get_all_actors)
    = Some (VStr "RuntimeError").
Proof.
  apply (not_connected_has_no_error_type (OpenClawService__init__ false)
           (VStr "ping") (BaseService__init__ false) Call_get_all_actors);
    reflexivity.
Defined.

(** A new instance is disconnected, whatever the host: its first
    [send_to_openclaw] fails, and so does every one until a
    [connect_to_openclaw] is among the calls made. *)
Theorem fresh_instance_must_connect (avail : bool) cs command :
  get_field "success"
    (send_to_openclaw (run_openclaw (OpenClawService__init__ avail) cs)
       command).1
  = Some (VBool (existsb is_connect cs)).
Proof.
  destruct (run_openclaw_flags (OpenClawService__init__ avail) cs) as [H _].
  cbn in H. unfold send_to_openclaw. rewrite H.
  destruct (existsb is_connect cs); cbn; by env_lookup.
Qed.

End OpenClawMore.

(** * Further properties of the registry *)

Section RegistryMore.

Variable unreal_importable : bool.

Implicit Types (st : state) (c : class_id) (attr : string).

(** A slot that holds something is answered from the slot: the class
    argument is not called, not even looked at, and nothing changes. *)
Lemma _get_service_hit st service_class attr v :
  globals st !! attr = Some v → g_is_None v = false →
  _get_service unreal_importable service_class attr st = (Return v, st).
Proof. intros H Hv. unfold _get_service. rewrite H. cbn. by rewrite Hv. Qed.

(** A first call on an empty slot, spelled out. *)
Lemma _get_service_miss st c attr :
  default GNone (globals st !! attr) = GNone →
  _get_service unreal_importable (GClass c) attr st =
  (Return (GRef (length (heap st))),
   State (<[attr := GRef (length (heap st))]> (globals st))
         (heap st ++ [construct unreal_importable c])).
Proof. intros H. unfold _get_service. rewrite H. reflexivity. Qed.

(** Once a slot is filled, every later lookup of it returns the cached
    reference and leaves the state alone, whatever is passed as the
    class. *)
Theorem cached_slot_is_returned st service_class attr l :
  globals st !! attr = Some (GRef l) →
  _get_service unreal_importable service_class attr st = (Return (GRef l), st).
Proof. intros H. by apply _get_service_hit. Qed.

(** On an empty slot, a [service_class] that is [None], a [bool], a
    [property] object or a service instance (none of which can be called)
    makes the call raise [TypeError]; the failure is not cached and the
    state is as before.  (A function passed as [service_class] would be
    called and its result cached; functions are not among the values of
    the registry modelled here.) *)
Theorem non_callable_service_class_raises st service_class attr :
  default GNone (globals st !! attr) = GNone →
  (service_class = GNone ∨ (∃ b, service_class = GBool b) ∨
   (∃ f, service_class = GProperty f) ∨ (∃ l, service_class = GRef l)) →
  ∃ msg,
    _get_service unreal_importable service_class attr st =
    (Raise (Exn TypeError msg), st).
Proof.
  intros H Hc. unfold _get_service. rewrite H. cbn [g_is_None].
  destruct Hc as [->|[[b ->]|[[f ->]|[l ->]]]]; cbn; by eexists.
Qed.

(** A first call touches only its own slot: every other global keeps its
    binding, every instance already on the heap stays where it is, and
    exactly one instance, of the class asked for, is added. *)
Theorem first_call_frame st c attr :
  default GNone (globals st !! attr) = GNone →
  ∃ l st',
    _get_service unreal_importable (GClass c) attr st = (Return (GRef l), st') ∧
    (∀ other, other ≠ attr → globals st' !! other = globals st !! other) ∧
    (∀ i o, heap st !! i = Some o → heap st' !! i = Some o) ∧
    length (heap st') = S (length (heap st)) ∧
    heap st !! l = None ∧
    (class_of <$> heap st' !! l) = Some c.
Proof.
  intros H. rewrite (_get_service_miss _ _ _ H).
  eexists _, _. split; [reflexivity|]. cbn. repeat split.
  - intros other Hne. by rewrite lookup_insert_ne.
  - intros i o Hi. by apply lookup_app_l_Some.
  - rewrite length_app. cbn. lia.
  - by apply lookup_ge_None_2.
  - rewrite lookup_app_r by lia. rewrite Nat.sub_diag. cbn.
    by destruct c.
Qed.

(** Two domains, two instances: filling two different empty slots one
    after the other yields two different references, and the first slot
    still answers with the first. *)
Theorem two_slots_two_instances st c1 c2 attr1 attr2 :
  attr1 ≠ attr2 →
  default GNone (globals st !! attr1) = GNone →
  default GNone (globals st !! attr2) = GNone →
  ∃ l1 l2 st1 st2,
    _get_service unreal_importable (GClass c1) attr1 st = (Return (GRef l1), st1) ∧
    _get_service unreal_importable (GClass c2) attr2 st1 = (Return (GRef l2), st2) ∧
    l1 ≠ l2 ∧
    _get_service unreal_importable (GClass c1) attr1 st2 = (Return (GRef l1), st2) ∧
    _get_service unreal_importable (GClass c2) attr2 st2 = (Return (GRef l2), st2).
Proof.
  intros Hne H1 H2.
  rewrite (_get_service_miss _ _ _ H1).
  eexists _, _, _, _. split; [reflexivity|].
  rewrite _get_service_miss
    by (cbn; by rewrite lookup_insert_ne by done).
  split; [reflexivity|]. cbn. split; [|split].
  - rewrite length_app. cbn. lia.
  - apply _get_service_hit; [|done]. cbn.
    rewrite lookup_insert_ne by done. by rewrite lookup_insert_eq.
  - apply _get_service_hit; [|done]. cbn. by rewrite lookup_insert_eq.
Qed.

(** An instance made by the registry carries the process-wide flag: every
    call of a domain method on it succeeds exactly when
    [is_unreal_available()] says so. *)
Theorem constructed_instance_follows_module_flag c (call : domain_call) :
  get_field "success" (invoke (base_of (construct unreal_importable c)) call)
  = Some (VBool (is_unreal_available unreal_importable)).
Proof.
  assert (_unreal_available (base_of (construct unreal_importable c))
          = unreal_importable) as H by (by destruct c).
  unfold is_unreal_available, _UNREAL_AVAILABLE.
  destruct unreal_importable.
  - destruct call; cbn [invoke];
      unfold create_blueprint, add_variable, compile_blueprint, create_material,
        create_material_instance, create_widget_blueprint, add_widget_component,
        spawn_actor, get_all_actors, create_animation_sequence,
        create_niagara_system, create_input_action, search_assets;
      rewrite (_check_unreal_true _ H); cbn; by env_lookup.
  - rewrite (invoke_unavailable _ _ H). cbn. unfold _format_error.
    by env_lookup.
Qed.

End RegistryMore.

Lemma cached_slot_is_returned_witness :
  _get_service true GNone "_actor_service"
    (State {[ "_actor_service" := GRef 0 ]} [construct true Cls_ActorService]) =
  (Return (GRef 0),
   State {[ "_actor_service" := GRef 0 ]} [construct true Cls_ActorService]).
Proof.
  apply (cached_slot_is_returned true
           (State {[ "_actor_service" := GRef 0 ]}
                  [construct true Cls_ActorService])
           GNone "_actor_service" 0).
  reflexivity.
Defined.

Lemma non_callable_service_class_raises_witness :
  ∃ msg,
    _get_service true (GBool true) "_actor_service" (State ∅ []) =
    (Raise (Exn TypeError msg), State ∅ []).
Proof.
  apply (non_callable_service_class_raises true (State ∅ []) (GBool true)
           "_actor_service");
    [reflexivity|right; left; by eexists].
Defined.

Lemma first_call_frame_witness :
  ∃ l st',
    _get_service true (GClass Cls_ActorService) "_actor_service"
      (State ∅ []) = (Return (GRef l), st') ∧
    (∀ other, other ≠ "_actor_service" →
              globals st' !! other = globals (State ∅ []) !! other) ∧
    (∀ i o, heap (State ∅ []) !! i = Some o → heap st' !! i = Some o) ∧
    length (heap st') = S (length (heap (State ∅ []))) ∧
    heap (State ∅ []) !! l = None ∧
    (class_of <$> heap st' !! l) = Some Cls_ActorService.
Proof.
  apply (first_call_frame true (State ∅ []) Cls_ActorService "_actor_service").
  reflexivity.
Defined.

Lemma two_slots_two_instances_witness :
  ∃ l1 l2 st1 st2,
    _get_service true (GClass Cls_ActorService) "_actor_service"
      (State ∅ []) = (Return (GRef l1), st1) ∧
    _get_service true (GClass Cls_AssetService) "_asset_service"
      st1 = (Return (GRef l2), st2) ∧
    l1 ≠ l2 ∧
    _get_service true (GClass Cls_ActorService) "_actor_service"
      st2 = (Return (GRef l1), st2) ∧
    _get_service true (GClass Cls_AssetService) "_asset_service"
      st2 = (Return (GRef l2), st2).
Proof.
  apply (two_slots_two_instances true (State ∅ []) Cls_ActorService
           Cls_AssetService "_actor_service" "_asset_service");
    [discriminate|reflexivity|reflexivity].
Defined.

Lemma _get_service_constructs_once_witness :
  ∃ l st',
    _get_service false (GClass Cls_OpenClawService) "_openclaw_service"
      (State {[ "_openclaw_service" := GNone ]} []) = (Return (GRef l), st') ∧
    heap st' !! l = Some (construct false Cls_OpenClawService) ∧
    globals st' !! "_openclaw_service" = Some (GRef l) ∧
    _get_service false (GClass Cls_OpenClawService) "_openclaw_service" st'
      = (Return (GRef l), st').
Proof.
  apply (_get_service_constructs_once false
           (State {[ "_openclaw_service" := GNone ]} [])
           Cls_OpenClawService "_openclaw_service").
  reflexivity.
Defined.

(** * Further properties of the module-level functions *)

Section ModuleFunctionsMore.

Variable py_exec : string → exec_result.

(** An exception outside the [Exception] hierarchy ([SystemExit],
    [KeyboardInterrupt]) is not caught: [execute_python] raises it to its
    caller and returns no envelope. *)
Theorem execute_python_lets_base_exceptions_through code out e :
  py_exec code = Exec out (Raise e) →
  is_Exception (exn_type e) = false →
  execute_python true py_exec code = Raise e.
Proof.
  intros H He. rewrite execute_python_cases, H. cbn. by rewrite He.
Qed.

(** Whenever [execute_python] returns, [success] is [True] exactly when
    the host is available and the code ran to its end, and then and only
    then [stdout] is non-empty. *)
Theorem execute_python_success_iff (avail : bool) code (e : envelope) :
  execute_python avail py_exec code = Return e →
  (e !! "success" = Some (VBool true) ↔
   avail = true ∧ ended (py_exec code) = Return ()) ∧
  (e !! "success" = Some (VBool true) ↔ e !! "stdout" ≠ Some (VStr "")).
Proof.
  destruct avail.
  - rewrite execute_python_cases.
    destruct (ended (py_exec code)) as [[]|x|]; [| |discriminate].
    + intros [= <-]. env_lookup. split; split; done.
    + destruct (is_Exception (exn_type x)); [|discriminate].
      intros [= <-]. env_lookup.
      split; split; try done; intros []; done.
  - rewrite execute_python_unavailable. intros [= <-]. env_lookup.
    split; split; try done; intros []; done.
Qed.

End ModuleFunctionsMore.

Lemma execute_python_lets_base_exceptions_through_witness :
  execute_python true sample_exec "raise SystemExit" = Raise (Exn SystemExit "").
Proof.
  apply (execute_python_lets_base_exceptions_through sample_exec
           "raise SystemExit" "" (Exn SystemExit ""));
    reflexivity.
Defined.

Lemma execute_python_success_iff_witness :
  (({[ "stdout" := VStr "Execution completed"; "stderr" := VStr "";
       "success" := VBool true ]} : envelope) !! "success" = Some (VBool true) ↔
   true = true ∧ ended (sample_exec "pass") = Return ()) ∧
  (({[ "stdout" := VStr "Execution completed"; "stderr" := VStr "";
       "success" := VBool true ]} : envelope) !! "success" = Some (VBool true) ↔
   ({[ "stdout" := VStr "Execution completed"; "stderr" := VStr "";
       "success" := VBool true ]} : envelope) !! "stdout" ≠ Some (VStr "")).
Proof.
  apply (execute_python_success_iff sample_exec true "pass").
  reflexivity.
Defined.

Section Discovery.

(** [list_subsystems] is empty exactly when the host is absent;
    otherwise it is the list of four different names. *)
Theorem list_subsystems_empty_iff (avail : bool) :
  (list_subsystems avail = [] ↔ avail = false) ∧
  (avail = true →
   length (list_subsystems avail) = 4 ∧ NoDup (list_subsystems avail)).
Proof.
  split.
  - destruct avail; cbn; split; done.
  - intros ->. split; [reflexivity|]. cbn.
    repeat (apply NoDup_cons; split;
            [rewrite ?elem_of_cons, elem_of_nil; intros H;
             repeat (destruct H as [H|H]; [discriminate|]); exact H|]).
    apply NoDup_nil_2.
Qed.

Lemma list_subsystems_empty_iff_witness :
  length (list_subsystems true) = 4 ∧ NoDup (list_subsystems true).
Proof. apply (proj2 (list_subsystems_empty_iff true)). reflexivity. Defined.

(** The two discovery functions have no [success] field, so the [error]
    key is what tells the two cases apart: it is there exactly when the
    host is absent.  With the host present the name asked for comes back
    under [module] or [class], and the keyword arguments play no part. *)
Theorem discovery_error_iff (avail : bool) (name : string)
    (kwargs kwargs' : gmap string value) :
  (is_Some (discover_module avail name kwargs !! "error") ↔ avail = false) ∧
  (is_Some (discover_class avail name kwargs !! "error") ↔ avail = false) ∧
  discover_module true name kwargs !! "module" = Some (VStr name) ∧
  discover_class true name kwargs !! "class" = Some (VStr name) ∧
  discover_module avail name kwargs = discover_module avail name kwargs' ∧
  discover_class avail name kwargs = discover_class avail name kwargs'.
Proof.
  split; [|split; [|split; [|split; [|split]]]]; try reflexivity.
  - destruct avail; cbn; env_lookup; split;
      first [intros [? ?]; discriminate | done | by eexists].
  - destruct avail; cbn; env_lookup; split;
      first [intros [? ?]; discriminate | done | by eexists].
Qed.

End Discovery.

(** [execute_python("1/0")] on the sample host: [success] is [False], the
    message is under [stderr], and there is no [error] entry to hold it. *)
Lemma C4_message_is_not_under_error :
  get_field "success" (execute_python true sample_exec "1/0")
    = Some (VBool false) ∧
  get_field "stderr" (execute_python true sample_exec "1/0")
    = Some (VStr "division by zero") ∧
  get_field "error" (execute_python true sample_exec "1/0") = None ∧
  get_field "error" (execute_python true sample_exec "1/0")
    ≠ Some (VStr "division by zero").
Proof.
  assert (execute_python true sample_exec "1/0" =
          Return {[ "stdout" := VStr ""; "stderr" := VStr "division by zero";
                    "success" := VBool false ]}) as -> by reflexivity.
  cbn. repeat split; env_lookup; done.
Qed.

(** * Faults in the service methods, with arguments as objects *)

Section Faults.

Implicit Types (self : BaseService) (c : domain_call_obj) (e : pyexn).

(** On plain strings the methods on objects are the methods on strings. *)
Lemma invoke_obj_plain self (c : domain_call) :
  invoke_obj self (plain c) = of_outcome (invoke self c).
Proof.
  unfold invoke_obj, try_body.
  destruct (_unreal_available self) eqn:H.
  - rewrite (_check_unreal_true _ H).
    destruct c; cbn [invoke];
      unfold create_blueprint, add_variable, compile_blueprint, create_material,
        create_material_instance, create_widget_blueprint, add_widget_component,
        spawn_actor, get_all_actors, create_animation_sequence,
        create_niagara_system, create_input_action, search_assets;
      rewrite (_check_unreal_true _ H); reflexivity.
  - rewrite (invoke_unavailable _ _ H), (_check_unreal_false _ H).
    reflexivity.
Qed.

Lemma connect_to_openclaw_obj_plain (self : OpenClawService) url :
  connect_to_openclaw_obj self (of_str url) =
  (of_outcome (connect_to_openclaw self url).1, (connect_to_openclaw self url).2).
Proof. reflexivity. Qed.

(** What [except Exception] with [_format_error] makes of a [try] block. *)
Lemma handler_cases (body : result envelope) :
  try_except_obj body _format_error_obj =
  match body with
  | Ret a => Ret a
  | Exc e =>
      if is_Exception (pe_class e) then
        match pe_str e with
        | StrIs s =>
            Ret {[ "success" := VBool false;
                   "error" := VStr s;
                   "error_type" := VStr (class_name (pe_class e)) ]}
        | StrRaises e' => Exc e'
        end
      else Exc e
  | Div => Div
  end.
Proof.
  destruct body as [a|e|]; reflexivity.
Qed.

(** Binding a formatted argument: the block raises what the formatting
    raises, or goes on. *)
Lemma bind_format_Exc {A} (x : pyobj) (k : string → result A) e :
  (obj_format x ≫= k) = Exc e →
  obj_format x = Exc e ∨ ∃ s, obj_format x = Ret s ∧ k s = Exc e.
Proof.
  destruct (obj_format x) as [s| |] eqn:Hx; cbn; intros H;
    [right; by exists s|left; congruence|discriminate].
Qed.

(** Nothing but the availability check and the formatting of an argument
    can raise under [try:]. *)
Lemma try_body_raises self c e :
  try_body self c = Exc e →
  (_unreal_available self = false ∧ e = of_exn unavailable) ∨
  Exists (λ x, obj_format x = Exc e) (formatted c).
Proof.
  unfold try_body. destruct (_unreal_available self) eqn:H.
  2: { rewrite (_check_unreal_false _ H). cbn. intros [= <-]. by left. }
  rewrite (_check_unreal_true _ H). cbn -[formatted]. intros He. right.
  destruct c; cbn [formatted]; unfold created in He;
    repeat match type of He with
           | (obj_format ?x ≫= _) = Exc _ =>
               apply bind_format_Exc in He as [He|(? & ? & He)];
               [repeat first [by apply Exists_cons_hd | apply Exists_cons_tl]|]
           end;
    try discriminate.
Qed.

End Faults.

Section NoFaultEscapes.




End NoFaultEscapes.

Section ExecuteFaults.

Variable py_exec : string → exec_result_obj.

(** On a host whose exceptions all have a message, [execute_python] on
    objects is [execute_python]. *)
Lemma execute_python_obj_of_exec (avail : bool) (h : string → exec_result)
    code :
  execute_python_obj avail (λ c, of_exec (h c)) code =
  of_outcome (execute_python avail h code).
Proof.
  destruct avail; [|reflexivity].
  unfold execute_python_obj, execute_python, of_exec.
  cbn [_UNREAL_AVAILABLE negb ended_obj].
  destruct (ended (h code)) as [[]|e|]; cbn; try reflexivity.
  by destruct (is_Exception (exn_type e)).
Qed.

(** With the host available, an exception below [Exception] raised by the
    executed code is caught, and the handler evaluates [str(e)]: when that
    returns a string, [execute_python] returns [success=False] with the
    string in [stderr] and an empty [stdout]; when [str(e)] itself raises,
    [execute_python] raises that exception and returns nothing. *)
Theorem execute_python_catches_exceptions code out e :
  py_exec code = ExecObj out (Exc e) →
  is_Exception (pe_class e) = true →
  execute_python_obj true py_exec code =
    match pe_str e with
    | StrIs s =>
        Ret {[ "stdout" := VStr "";
               "stderr" := VStr s;
               "success" := VBool false ]}
    | StrRaises e' => Exc e'
    end.
Proof.
  intros H He. unfold execute_python_obj.
  cbn [_UNREAL_AVAILABLE negb]. rewrite H. cbn. by rewrite He.
Qed.

End ExecuteFaults.

Lemma execute_python_catches_exceptions_witness :
  execute_python_obj true sample_exec_obj
    "raise type('U', (Exception,), {'__str__': lambda s: None})()" =
  Exc (PyExn TypeError (StrIs "__str__ returned non-string (type NoneType)")) ∧
  execute_python_obj true sample_exec_obj "1/0" =
  Ret {[ "stdout" := VStr "";
         "stderr" := VStr "division by zero";
         "success" := VBool false ]}.
Proof.
  split.
  - apply (execute_python_catches_exceptions sample_exec_obj
             "raise type('U', (Exception,), {'__str__': lambda s: None})()"
             "" unprintable); reflexivity.
  - apply (execute_python_catches_exceptions sample_exec_obj "1/0" ""
             (PyExn ZeroDivisionError (StrIs "division by zero")));
      reflexivity.
Defined.
